(** * generic_decorators: a shallow embedding of [generic_decorators.py]

    The Python module offers four decorators: [timing], [make_parallel],
    [make_parallel_processes] and [singleton].  Part I embeds each of them
    in a module of its own; Part II states and proves their properties.

    Python values are untyped, so the embedding is polymorphic in the types
    of arguments and results.  A Python call either returns a value or
    raises: this is the type [outcome].  Code that prints, reads the clock or
    updates a dictionary is written in a state-and-exception monad. *)

From stdpp Require Import base option list strings gmap.

(** * Part I: the embedding *)

(** ** Exceptions and outcomes of a call *)

(** The exceptions that can travel through the decorators: the two that the
    decorators' own subscripting can raise, and whatever the wrapped callable
    raises, identified by its payload. *)
Inductive exn : Type :=
  | IndexError
  | KeyError
  | Exception (msg : string).

Inductive outcome (T : Type) : Type :=
  | Returns (v : T)
  | Raises (e : exn).

Arguments Returns {T} v.
Arguments Raises {T} e.

(** The list display [[func(x)]] around a call that may raise. *)
Definition list_display {T} (o : outcome T) : outcome (list T) :=
  match o with
  | Returns v => Returns [v]
  | Raises e => Raises e
  end.

(** ** Stateful computations that may raise *)

Definition stateful (S T : Type) : Type := S -> outcome T * S.

Definition ret {S T} (v : T) : stateful S T := fun s => (Returns v, s).

Definition bind {S T U} (m : stateful S T) (k : T -> stateful S U) : stateful S U :=
  fun s =>
    match m s with
    | (Returns v, s') => k v s'
    | (Raises e, s') => (Raises e, s')
    end.

Notation "'let!' x ':=' m 'in' k" := (bind m (fun x => k))
  (at level 10, x pattern, m at level 100, k at level 200).

(** ** timing (lines 21-32) *)

Module Timing.

Section timing.

(** [seconds] stands for the floats returned by [time()], [Args] and [Kw]
    for the positional and keyword arguments that are passed through. *)
Context {seconds Args Kw R : Type}.

(** Float subtraction, and the [%]-formatting of line 30. *)
Variable fsub : seconds -> seconds -> seconds.
Variable format_line : string -> Args -> Kw -> seconds -> string.

(** What a call can observe and change: the clock, read by [time()], and
    the standard output. *)
Record world : Type := World {
  clock : nat -> seconds;
  reads : nat;
  stdout : list string
}.

Definition time : stateful world seconds :=
  fun w => (Returns (clock w (reads w)),
            {| clock := clock w; reads := S (reads w); stdout := stdout w |}).

Definition print (s : string) : stateful world unit :=
  fun w => (Returns tt,
            {| clock := clock w; reads := reads w; stdout := stdout w ++ [s] |}).

(** A Python callable: its [__name__] and what calling it does. *)
Record callable : Type := Callable {
  name : string;
  call : Args -> Kw -> stateful world R
}.

(** The inner function [wrap] of [timing(func)]. *)
Definition wrap (func : callable) (args : Args) (kw : Kw) : stateful world R :=
  let! start_time := time in
  let! result := call func args kw in
  let! now := time in
  let elapsed := fsub now start_time in
  let! _ := print (format_line (name func) args kw elapsed) in
  ret result.

(** [@wraps(func)] copies the name; the decorated callable runs [wrap]. *)
Definition timing (func : callable) : callable :=
  {| name := name func; call := wrap func |}.

(** A callable that neither reads nor changes the world. *)
Definition pure_callable (n : string) (f : Args -> Kw -> outcome R) : callable :=
  {| name := n; call := fun args kw w => (f args kw, w) |}.

End timing.

(** *** A sample clock, format and callables *)

(** A clock that advances by ten seconds between two readings. *)
Definition ticking : @world nat :=
  {| clock := fun n => 10 * n; reads := 0; stdout := [] |}.

(** A format that keeps the name only. *)
Definition name_only (n : string) (args kw elapsed : nat) : string := n.


Definition refuse : @callable nat nat nat nat :=
  pure_callable "refuse" (fun _ _ => Raises (Exception "refused")).

End Timing.

(** ** make_parallel and make_parallel_processes (lines 35-118) *)

Module Parallel.

(** The two queries of host parallelism, [os.cpu_count()] and
    [multiprocessing.cpu_count()].  Both report a positive number of
    logical CPUs; hosts on which the number cannot be determined are
    outside this model. *)
Record host : Type := Host {
  os_cpu_count : positive;
  multiprocessing_cpu_count : positive
}.

Inductive pool_kind : Type := Threads | Processes.

(** What a wrapper itself does besides computing its result, in program
    order: a call of [func] in the calling thread, the creation of a pool,
    the handing of a call to the thread pool by [submit], and the exit of
    the [with] block.  The process-based wrapper hands joblib a generator of
    delayed calls; which of them joblib draws and runs is joblib's doing and
    is not part of the trace. *)
Inductive event (A : Type) : Type :=
  | Call (x : A)
  | PoolCreate (kind : pool_kind) (workers : nat)
  | Dispatch (x : A)
  | PoolExit.

Arguments Call {A} x.
Arguments PoolCreate {A} kind workers.
Arguments Dispatch {A} x.
Arguments PoolExit {A}.


(** *** concurrent.futures *)

(** A future made by [executer.submit(func, i)]: its identity (futures are
    hashed by identity, so the dictionary [bag] keeps them all) and what
    [future.result()] gives once the call has completed. *)
Record future (B : Type) : Type := Future {
  fut_id : nat;
  fut_result : outcome B
}.

Arguments Future {B} fut_id fut_result.
Arguments fut_id {B} f.
Arguments fut_result {B} f.

(** [as_completed] yields the futures it is given, each once, in the order
    in which they complete: an order that the program does not control. *)
Class Executor (B : Type) : Type := {
  as_completed : list (future B) -> list (future B);
  as_completed_perm : forall fs, as_completed fs ≡ₚ fs
}.

(** The loop of lines 76-77 with its accumulator [result]. *)
Fixpoint gather {B} (completed : list (future B)) (result : list B) : outcome (list B) :=
  match completed with
  | [] => Returns result
  | fut :: rest =>
      match fut_result fut with
      | Returns v => gather rest (result ++ [v])
      | Raises e => Raises e
      end
  end.

(** The values of the futures that returned, in the order of the list. *)
Definition returned {B} (fs : list (future B)) : list B :=
  omap (fun fut => match fut_result fut with
                   | Returns v => Some v
                   | Raises _ => None
                   end) fs.

(** *** joblib *)

(** [delayed(func)(i)]: a call that has not been made yet. *)
Record delayed (A B : Type) : Type := Delayed {
  d_func : A -> outcome B;
  d_arg : A
}.

Arguments Delayed {A B} d_func d_arg.
Arguments d_func {A B} d.
Arguments d_arg {A B} d.

Definition run {A B} (d : delayed A B) : outcome B := d_func d (d_arg d).

(** [Parallel(n_jobs=n)(tasks)], as joblib documents it for tasks that can
    be sent to the workers and workers that stay alive: with at least one job
    it returns the results in the order of the tasks; when a task raises, it
    raises the exception of a task that raised.  Failures of the transport
    between the processes are outside this interface. *)
Class Joblib (A B : Type) : Type := {
  Parallel : nat -> list (delayed A B) -> outcome (list B);
  Parallel_returns : forall n tasks rs,
    1 <= n ->
    Forall2 (fun d r => run d = Returns r) tasks rs ->
    Parallel n tasks = Returns rs;
  Parallel_raises : forall n tasks,
    1 <= n ->
    Exists (fun d => exists e, run d = Raises e) tasks ->
    exists d e, d ∈ tasks /\ run d = Raises e /\ Parallel n tasks = Raises e
}.

(** *** The wrappers *)

Section wrappers.

Context {A B : Type} `{!Executor B} `{!Joblib A B}.

Variable h : host.
Variable func : A -> outcome B.

(** Lines 58-63: the number of workers of [make_parallel]. *)
Definition thread_workers (lst : list A) : nat :=
  let number_of_threads_multiple := 2 in
  let number_of_workers := Pos.to_nat (os_cpu_count h) * number_of_threads_multiple in
  if length lst <? number_of_workers then length lst else number_of_workers.

(** Lines 99-103: the number of workers of [make_parallel_processes]. *)
Definition process_workers (lst : list A) : nat :=
  let number_of_workers := Pos.to_nat (multiprocessing_cpu_count h) in
  if length lst <? number_of_workers then length lst else number_of_workers.

(** [func(lst[0])] inside a list display, in the calling thread. *)
Definition run_serially (lst : list A) : list (event A) * outcome (list B) :=
  match lst with
  | [] => ([], Raises IndexError)
  | x :: _ => ([Call x], list_display (func x))
  end.

(** Line 75: the dictionary from futures to their inputs, in insertion
    order. *)
Definition submit_all (lst : list A) : list (future B * A) :=
  imap (fun k i => (Future k (func i), i)) lst.

(** The inner function [wrapper] of [make_parallel(func)], lines 47-80. *)
Definition make_parallel (lst : list A) : list (event A) * outcome (list B) :=
  let number_of_workers := thread_workers lst in
  if negb (number_of_workers =? 0) then
    if number_of_workers =? 1 then
      run_serially lst
    else
      let bag := submit_all lst in
      (PoolCreate Threads number_of_workers :: map Dispatch lst ++ [PoolExit],
       gather (as_completed (map fst bag)) [])
  else
    ([], Returns []).

(** The inner function [wrapper] of [make_parallel_processes(func)],
    lines 91-117. *)
Definition make_parallel_processes (lst : list A) : list (event A) * outcome (list B) :=
  let number_of_workers := process_workers lst in
  if negb (number_of_workers =? 0) then
    if number_of_workers =? 1 then
      run_serially lst
    else
      ([PoolCreate Processes number_of_workers],
       Parallel number_of_workers (map (Delayed func) lst))
  else
    ([], Returns []).

End wrappers.

(** *** Executors and a joblib to run the wrappers with *)

(** Futures that complete in the order of submission. *)
Definition fifo_executor (B : Type) : Executor B :=
  {| as_completed := fun fs => fs;
     as_completed_perm := fun fs => reflexivity fs |}.

(** Futures that complete in the opposite order: the last one first. *)
Definition lifo_executor (B : Type) : Executor B :=
  {| as_completed := reverse;
     as_completed_perm := reverse_Permutation |}.

(** The tasks run one after the other; the first exception ends the run. *)
Fixpoint run_in_order {A B} (tasks : list (delayed A B)) : outcome (list B) :=
  match tasks with
  | [] => Returns []
  | d :: rest =>
      match run d with
      | Raises e => Raises e
      | Returns v =>
          match run_in_order rest with
          | Returns vs => Returns (v :: vs)
          | Raises e => Raises e
          end
      end
  end.

(** A joblib with a single worker at a time. *)
Definition sequential_joblib (A B : Type) : Joblib A B.
Proof.
  refine {| Parallel := fun _ => run_in_order |}.
  - intros _ tasks rs _.
    induction 1 as [|d r tasks rs Hd _ IH]; simpl; [reflexivity|].
    rewrite Hd, IH. reflexivity.
  - intros _ tasks _.
    induction tasks as [|d tasks IH]; intros Hex; [inversion Hex|].
    simpl. destruct (run d) as [v|e] eqn:Hd.
    + apply Exists_cons in Hex as [[e He]|Hex]; [congruence|].
      destruct (IH Hex) as (d' & e & Hin & Hrun & Hall).
      exists d', e. rewrite Hall. split_and!; [by apply list_elem_of_further|done..].
    + exists d, e. split_and!; [apply list_elem_of_here|done..].
Defined.

(** *** Sample hosts and functions *)

Definition quad_core : host := Host 4 4.
Definition single_core : host := Host 1 1.

(** The function of the concrete scenario, [lambda x: x*x]. *)
Definition square (x : nat) : outcome nat := Returns (x * x).

(** A function that fails on one input. *)
Definition fail_on_2 (x : nat) : outcome nat :=
  if x =? 2 then Raises (Exception "two") else Returns x.

(** A function that returns on 0 and fails on every other input, with an
    exception that tells 1 from larger inputs. *)
Definition fail_tagged (x : nat) : outcome nat :=
  if x =? 0 then Returns 0
  else if x =? 1 then Raises (Exception "one")
  else Raises (Exception "many").

End Parallel.

(** ** singleton (lines 121-133) *)

Module Singleton.

Section singleton.

(** [Args] stands for the constructor's positional and keyword arguments,
    [Obj] for the contents of an instance. *)
Context {Args Obj : Type}.

(** A class: its identity (the key under which the dictionary stores it),
    its [__name__] and what calling it with arguments gives. *)
Record pyclass : Type := PyClass {
  class_id : positive;
  class_name : string;
  construct : Args -> outcome Obj
}.

(** What the closure of one decoration sees and changes: the object store
    (a reference is an index into it), the dictionary [instances] of this
    closure (line 125 makes one for each decoration), and the standard
    output. *)
Record state : Type := State {
  heap : list Obj;
  instances : gmap positive nat;
  stdout : list string
}.

Definition print (s : string) : stateful state unit :=
  fun st => (Returns tt,
             {| heap := heap st; instances := instances st; stdout := stdout st ++ [s] |}).

(** [class_ in instances] *)
Definition contains (class_ : pyclass) : stateful state bool :=
  fun st => (Returns (bool_decide (is_Some (instances st !! class_id class_))), st).

(** Calling [class_] with the arguments: a new object, unless the constructor
    raises. *)
Definition new (class_ : pyclass) (args : Args) : stateful state nat :=
  fun st =>
    match construct class_ args with
    | Returns obj =>
        (Returns (length (heap st)),
         {| heap := heap st ++ [obj]; instances := instances st; stdout := stdout st |})
    | Raises e => (Raises e, st)
    end.

(** [instances[class_] = ref] *)
Definition setitem (class_ : pyclass) (ref : nat) : stateful state unit :=
  fun st => (Returns tt,
             {| heap := heap st;
                instances := <[class_id class_ := ref]> (instances st);
                stdout := stdout st |}).

(** [instances[class_]] *)
Definition getitem (class_ : pyclass) : stateful state nat :=
  fun st =>
    match instances st !! class_id class_ with
    | Some ref => (Returns ref, st)
    | None => (Raises KeyError, st)
    end.

(** The f-string of line 129. *)
Definition creating (class_ : pyclass) : string :=
  "singleton(): creating class " +:+ class_name class_.

(** The inner function [getinstance] of [singleton(class_)]. *)
Definition getinstance (class_ : pyclass) (args : Args) : stateful state nat :=
  let! present := contains class_ in
  let! _ := (if negb present then
               let! _ := print (creating class_) in
               let! ref := new class_ args in
               setitem class_ ref
             else ret tt) in
  getitem class_.

(** [singleton(class_)], called when the object store is [store] and the
    output is [out]: a new closure, with a dictionary of its own that starts
    as [instances = {}]. *)
Definition singleton (class_ : pyclass) (store : list Obj) (out : list string)
  : (Args -> stateful state nat) * state :=
  (getinstance class_,
   {| heap := store; instances := ∅; stdout := out |}).

(** Successive calls of the decorated class. *)
Fixpoint call_each (getinst : Args -> stateful state nat) (argss : list Args) (st : state)
  : list (outcome nat) * state :=
  match argss with
  | [] => ([], st)
  | args :: rest =>
      let '(o, st') := getinst args st in
      let '(os, st'') := call_each getinst rest st' in
      (o :: os, st'')
  end.

End singleton.

(** *** A sample class and store *)

(** A class whose constructor wants a positive number and keeps it. *)
Definition Positive : @pyclass nat nat :=
  {| class_id := 1;
     class_name := "Positive";
     construct := fun n => if n =? 0 then Raises (Exception "not positive") else Returns n |}.

Definition fresh_store : @state nat :=
  {| heap := []; instances := ∅; stdout := [] |}.

End Singleton.

(** * Part II: properties *)

(** ** timing *)

Section timing_properties.

Import Timing.

Context {seconds Args Kw R : Type}.
Variable fsub : seconds -> seconds -> seconds.
Variable format_line : string -> Args -> Kw -> seconds -> string.

#[local] Abbreviation world := (@Timing.world seconds).
#[local] Abbreviation callable := (@Timing.callable seconds Args Kw R).
#[local] Abbreviation wrap := (Timing.wrap fsub format_line).
#[local] Abbreviation timing := (Timing.timing fsub format_line).


(** The log line is written when the call returns, with the name of the
    callable, its arguments and the difference of the two clock readings. *)
Lemma wrap_logs_on_return (func : callable) (args : Args) (kw : Kw) (w w' : world) (v : R) :
  call func args kw (time w).2 = (Returns v, w') ->
  (wrap func args kw w).2.(stdout)
  = stdout w' ++ [format_line (name func) args kw
                    (fsub (clock w' (reads w')) (clock w (reads w)))].
Proof. intros H. unfold Timing.wrap, bind. simpl in *. rewrite H. reflexivity. Qed.

(** An exception of the callable leaves [wrap] before the log line. *)
Lemma wrap_raises_silent (func : callable) (args : Args) (kw : Kw) (w w' : world) (e : exn) :
  call func args kw (time w).2 = (Raises e, w') ->
  wrap func args kw w = (Raises e, w').
Proof. intros H. unfold Timing.wrap, bind. simpl in *. rewrite H. reflexivity. Qed.


End timing_properties.

(** ** The parallel wrappers *)

Section parallel_properties.

Import Parallel.

Context {A B : Type}.

(** *** Worker counts *)

Lemma thread_workers_min (h : host) (lst : list A) :
  thread_workers h lst = Nat.min (Pos.to_nat (os_cpu_count h) * 2) (length lst).
Proof. unfold thread_workers. cbv zeta. destruct (Nat.ltb_spec (length lst) (Pos.to_nat (os_cpu_count h) * 2)); lia. Qed.

Lemma process_workers_min (h : host) (lst : list A) :
  process_workers h lst = Nat.min (Pos.to_nat (multiprocessing_cpu_count h)) (length lst).
Proof. unfold process_workers. cbv zeta. destruct (Nat.ltb_spec (length lst) (Pos.to_nat (multiprocessing_cpu_count h))); lia. Qed.

Lemma thread_workers_0 (h : host) (lst : list A) :
  thread_workers h lst = 0 <-> lst = [].
Proof.
  rewrite thread_workers_min.
  destruct lst; simpl; (split; intros ?; [try done; lia | try done; lia]).
Qed.

Lemma thread_workers_1 (h : host) (lst : list A) :
  thread_workers h lst = 1 <-> length lst = 1.
Proof. rewrite thread_workers_min. lia. Qed.

Lemma process_workers_0 (h : host) (lst : list A) :
  process_workers h lst = 0 <-> lst = [].
Proof.
  rewrite process_workers_min.
  destruct lst; simpl; (split; intros ?; [try done; lia | try done; lia]).
Qed.

Lemma process_workers_1 (h : host) (lst : list A) :
  process_workers h lst = 1
  <-> length lst = 1 \/ (multiprocessing_cpu_count h = 1%positive /\ 1 <= length lst).
Proof. rewrite process_workers_min. lia. Qed.

(** *** The three branches of each wrapper *)

Lemma make_parallel_nil `{!Executor B} (h : host) (func : A -> outcome B) :
  make_parallel h func [] = ([], Returns []).
Proof.
  unfold make_parallel.
  assert (thread_workers h ([] : list A) = 0) as -> by (by apply thread_workers_0).
  reflexivity.
Qed.

Lemma make_parallel_one `{!Executor B} (h : host) (func : A -> outcome B) (x : A) :
  make_parallel h func [x] = ([Call x], list_display (func x)).
Proof.
  unfold make_parallel.
  assert (thread_workers h [x] = 1) as -> by (by apply thread_workers_1).
  reflexivity.
Qed.

Lemma make_parallel_pool `{!Executor B} (h : host) (func : A -> outcome B) (lst : list A) :
  2 <= length lst ->
  make_parallel h func lst
  = (PoolCreate Threads (thread_workers h lst) :: map Dispatch lst ++ [PoolExit],
     gather (as_completed (map fst (submit_all func lst))) []).
Proof.
  intros Hlen. unfold make_parallel.
  pose proof (thread_workers_min h lst) as Hw.
  destruct (thread_workers h lst) as [|[|n]] eqn:E; [lia..|reflexivity].
Qed.

Lemma make_parallel_processes_nil `{!Joblib A B} (h : host) (func : A -> outcome B) :
  make_parallel_processes h func [] = ([], Returns []).
Proof.
  unfold make_parallel_processes.
  assert (process_workers h ([] : list A) = 0) as -> by (by apply process_workers_0).
  reflexivity.
Qed.

Lemma make_parallel_processes_serial `{!Joblib A B}
    (h : host) (func : A -> outcome B) (x : A) (lst : list A) :
  lst = [] \/ multiprocessing_cpu_count h = 1%positive ->
  make_parallel_processes h func (x :: lst) = ([Call x], list_display (func x)).
Proof.
  intros Hone. unfold make_parallel_processes.
  assert (process_workers h (x :: lst) = 1) as ->; [|reflexivity].
  apply process_workers_1. simpl. destruct Hone as [->|?]; [left; reflexivity|right; lia].
Qed.

Lemma make_parallel_processes_pool `{!Joblib A B}
    (h : host) (func : A -> outcome B) (lst : list A) :
  2 <= length lst ->
  multiprocessing_cpu_count h <> 1%positive ->
  make_parallel_processes h func lst
  = ([PoolCreate Processes (process_workers h lst)],
     Parallel (process_workers h lst) (map (Delayed func) lst)).
Proof.
  intros Hlen Hcpu. unfold make_parallel_processes.
  pose proof (process_workers_min h lst) as Hw.
  destruct (process_workers h lst) as [|[|n]] eqn:E; [lia..|reflexivity].
Qed.

(** *** Gathering the futures *)

Lemma gather_returns (fs : list (future B)) (acc : list B) :
  Forall (fun fut => exists v, fut_result fut = Returns v) fs ->
  gather fs acc = Returns (acc ++ returned fs).
Proof.
  intros Hall. revert acc.
  induction Hall as [|fut fs [v Hv] _ IH]; intros acc; simpl.
  - by rewrite app_nil_r.
  - unfold returned. simpl. rewrite Hv, IH. by rewrite <-app_assoc.
Qed.

Lemma gather_raises (fs : list (future B)) (acc : list B) :
  Exists (fun fut => exists e, fut_result fut = Raises e) fs ->
  exists fut e, fut ∈ fs /\ fut_result fut = Raises e /\ gather fs acc = Raises e.
Proof.
  revert acc. induction fs as [|fut fs IH]; intros acc Hex; [inversion Hex|].
  simpl. destruct (fut_result fut) as [v|e] eqn:Hfut.
  - apply Exists_cons in Hex as [[e He]|Hex]; [congruence|].
    destruct (IH (acc ++ [v]) Hex) as (fut' & e & Hin & Hres & Hg).
    exists fut', e. split_and!; [by apply list_elem_of_further|done..].
  - exists fut, e. split_and!; [apply list_elem_of_here|done..].
Qed.

(** The futures of [bag] are the calls of [func] on the elements of the
    list, one future for each position. *)
Lemma imap_future_results (func : A -> outcome B) (mk : nat -> nat) (lst : list A) :
  map fut_result (map fst (imap (fun k i => (Future (mk k) (func i), i)) lst))
  = map func lst.
Proof.
  revert mk. induction lst as [|x lst IH]; intros mk; [reflexivity|].
  simpl. f_equal. apply (IH (fun k => mk (S k))).
Qed.

Lemma submit_all_results (func : A -> outcome B) (lst : list A) :
  map fut_result (map fst (submit_all func lst)) = map func lst.
Proof. apply (imap_future_results func (fun k => k)). Qed.

Lemma submit_all_elem (func : A -> outcome B) (lst : list A) (fut : future B) :
  fut ∈ map fst (submit_all func lst) ->
  exists x, x ∈ lst /\ fut_result fut = func x.
Proof.
  intros Hin.
  assert (fut_result fut ∈ map func lst) as Hres.
  { rewrite <-submit_all_results. by apply list_elem_of_fmap_2. }
  apply list_elem_of_fmap in Hres as (x & Hx & Hin'). eauto.
Qed.

Lemma returned_results (fs : list (future B)) (vs : list B) :
  map fut_result fs = map Returns vs -> returned fs = vs.
Proof.
  revert vs. induction fs as [|fut fs IH]; intros [|v vs] Heq; try done.
  simpl in Heq. injection Heq as Hfut Hrest.
  unfold returned. simpl. rewrite Hfut. f_equal. by apply IH.
Qed.

Lemma map_returns (func : A -> outcome B) (g : A -> B) (lst : list A) :
  (forall x, x ∈ lst -> func x = Returns (g x)) ->
  map func lst = map Returns (map g lst).
Proof.
  intros Hg. rewrite map_map. apply map_ext_in.
  intros x Hx. apply Hg. by apply list_elem_of_In.
Qed.



(** *** Results when every call returns *)

(** The thread-based wrapper returns the values of [func] on the elements,
    in the order in which the futures complete. *)
Lemma make_parallel_permutation `{!Executor B}
    (h : host) (func : A -> outcome B) (g : A -> B) (lst : list A) :
  (forall x, x ∈ lst -> func x = Returns (g x)) ->
  exists R, (make_parallel h func lst).2 = Returns R /\ R ≡ₚ map g lst.
Proof.
  intros Hg. destruct lst as [|x [|y lst]].
  - rewrite make_parallel_nil. by exists [].
  - rewrite make_parallel_one, Hg by apply list_elem_of_here. by exists [g x].
  - assert (2 <= length (x :: y :: lst)) as Hlen by (simpl; lia).
    revert Hg Hlen. generalize (x :: y :: lst) as l. intros l Hg Hlen.
    rewrite make_parallel_pool by done. cbn [snd].
    set (fs := map fst (submit_all func l)).
    exists (returned (as_completed fs)). split.
    + apply (gather_returns _ []), Forall_forall.
      intros fut Hfut. rewrite as_completed_perm in Hfut.
      apply submit_all_elem in Hfut as (z & Hz & ->). eauto.
    + unfold returned. rewrite as_completed_perm. fold (returned fs).
      erewrite returned_results; [reflexivity|].
      unfold fs. rewrite submit_all_results. by apply map_returns.
Qed.

(** The process-based wrapper returns the values in the order of the
    list, provided that the list has one element at most or the host has
    more than one CPU. *)
Lemma make_parallel_processes_in_order `{!Joblib A B}
    (h : host) (func : A -> outcome B) (g : A -> B) (lst : list A) :
  length lst <= 1 \/ multiprocessing_cpu_count h <> 1%positive ->
  (forall x, x ∈ lst -> func x = Returns (g x)) ->
  (make_parallel_processes h func lst).2 = Returns (map g lst).
Proof.
  intros Hcpu Hg. destruct lst as [|x lst].
  - by rewrite make_parallel_processes_nil.
  - destruct lst as [|y lst].
    { rewrite make_parallel_processes_serial, Hg by (auto using list_elem_of_here).
      reflexivity. }
    destruct Hcpu as [Hlen|Hcpu]; [simpl in Hlen; lia|].
    assert (2 <= length (x :: y :: lst)) as Hlen by (simpl; lia).
    revert Hg Hlen. generalize (x :: y :: lst) as l. clear x y lst. intros l Hg Hlen.
    rewrite make_parallel_processes_pool by done. cbn [snd].
    apply Parallel_returns.
    + rewrite process_workers_min. lia.
    + clear Hlen. induction l as [|x l IH]; constructor.
      * unfold run. simpl. apply Hg, list_elem_of_here.
      * apply IH. intros z Hz. by apply Hg, list_elem_of_further.
Qed.

(** *** Failures *)

Lemma make_parallel_raises `{!Executor B}
    (h : host) (func : A -> outcome B) (lst : list A) (x : A) (e : exn) :
  x ∈ lst ->
  func x = Raises e ->
  exists x' e', x' ∈ lst /\ func x' = Raises e' /\ (make_parallel h func lst).2 = Raises e'.
Proof.
  destruct lst as [|y [|z lst]].
  - intros Hx. inversion Hx.
  - rewrite make_parallel_one. intros ->%list_elem_of_singleton Hy.
    exists y, e. rewrite Hy. split_and!; [apply list_elem_of_here|done..].
  - assert (2 <= length (y :: z :: lst)) as Hlen by (simpl; lia).
    revert Hlen. generalize (y :: z :: lst) as l. intros l Hlen.
    rewrite make_parallel_pool by done. cbn [snd]. intros Hx Hfx.
    destruct (gather_raises (as_completed (map fst (submit_all func l))) []) as
      (fut & e' & Hfut & Hres & Hg).
    { apply Exists_exists. setoid_rewrite as_completed_perm.
      assert (func x ∈ map fut_result (map fst (submit_all func l))) as Hin.
      { rewrite submit_all_results. by apply list_elem_of_fmap_2. }
      apply list_elem_of_fmap in Hin as (fut & Heq & Hin).
      exists fut. split; [done|]. exists e. congruence. }
    rewrite as_completed_perm in Hfut.
    apply submit_all_elem in Hfut as (x' & Hx' & Heq).
    exists x', e'. split_and!; [done|congruence|done].
Qed.

(** With more than one CPU, or a list of one element, the process-based
    wrapper raises when [func] raises on an element, as far as joblib does. *)
Lemma make_parallel_processes_raises `{!Joblib A B}
    (h : host) (func : A -> outcome B) (lst : list A) (x : A) (e : exn) :
  length lst <= 1 \/ multiprocessing_cpu_count h <> 1%positive ->
  x ∈ lst ->
  func x = Raises e ->
  exists x' e', x' ∈ lst
    /\ func x' = Raises e' /\ (make_parallel_processes h func lst).2 = Raises e'.
Proof.
  intros Hcpu. destruct lst as [|y lst].
  { intros Hx. inversion Hx. }
  destruct lst as [|z lst].
  - rewrite make_parallel_processes_serial by (by left).
    intros ->%list_elem_of_singleton Hy.
    exists y, e. rewrite Hy. split_and!; [apply list_elem_of_here|done..].
  - destruct Hcpu as [Hlen|Hcpu]; [simpl in Hlen; lia|].
    assert (2 <= length (y :: z :: lst)) as Hlen by (simpl; lia).
    revert Hlen. generalize (y :: z :: lst) as l. intros l Hlen.
    rewrite make_parallel_processes_pool by done. cbn [snd]. intros Hx Hfx.
    destruct (Parallel_raises (process_workers h l) (map (Delayed func) l)) as
      (d & e' & Hd & Hrun & Hpar).
    { rewrite process_workers_min. lia. }
    { apply Exists_exists. exists (Delayed func x). split.
      - by apply list_elem_of_fmap_2.
      - exists e. done. }
    apply list_elem_of_fmap in Hd as (x' & -> & Hx').
    exists x', e'. done.
Qed.

(** *** Pools *)

Lemma pool_not_dispatched (kind : pool_kind) (n : nat) (lst : list A) :
  PoolCreate kind n ∉ map Dispatch lst.
Proof. intros (x & Heq & _)%list_elem_of_fmap. discriminate. Qed.

Lemma make_parallel_pools `{!Executor B}
    (h : host) (func : A -> outcome B) (lst : list A) (kind : pool_kind) (n : nat) :
  PoolCreate kind n ∈ (make_parallel h func lst).1 ->
  kind = Threads /\ n = thread_workers h lst.
Proof.
  destruct lst as [|x [|y lst]].
  - rewrite make_parallel_nil. intros Hin. inversion Hin.
  - rewrite make_parallel_one. intros Hin%list_elem_of_singleton. discriminate.
  - rewrite make_parallel_pool by (simpl; lia). cbn [fst].
    intros [Heq|Hin]%elem_of_cons; [by injection Heq as -> ->|].
    apply elem_of_app in Hin as [Hin|Hin%list_elem_of_singleton]; [|discriminate].
    by apply pool_not_dispatched in Hin.
Qed.

Lemma make_parallel_processes_pools `{!Joblib A B}
    (h : host) (func : A -> outcome B) (lst : list A) (kind : pool_kind) (n : nat) :
  PoolCreate kind n ∈ (make_parallel_processes h func lst).1 ->
  kind = Processes /\ n = process_workers h lst.
Proof.
  destruct lst as [|x lst].
  { rewrite make_parallel_processes_nil. intros Hin. inversion Hin. }
  destruct (decide (lst = [] \/ multiprocessing_cpu_count h = 1%positive)) as [Hone|Hpool].
  - rewrite make_parallel_processes_serial by done.
    intros Hin%list_elem_of_singleton. discriminate.
  - rewrite make_parallel_processes_pool; cbn [fst].
    + intros Heq%list_elem_of_singleton. by injection Heq as -> ->.
    + destruct lst; simpl; [tauto|lia].
    + tauto.
Qed.

(** *** Lengths *)

Lemma make_parallel_length `{!Executor B}
    (h : host) (func : A -> outcome B) (g : A -> B) (lst : list A) :
  (forall x, x ∈ lst -> func x = Returns (g x)) ->
  exists R, (make_parallel h func lst).2 = Returns R /\ length R = length lst.
Proof.
  intros Hg. destruct (make_parallel_permutation h func g lst Hg) as (R & HR & Hperm).
  exists R. split; [done|]. by rewrite Hperm, length_map.
Qed.

Lemma make_parallel_processes_length `{!Joblib A B}
    (h : host) (func : A -> outcome B) (g : A -> B) (lst : list A) :
  length lst <= 1 \/ multiprocessing_cpu_count h <> 1%positive ->
  (forall x, x ∈ lst -> func x = Returns (g x)) ->
  exists R, (make_parallel_processes h func lst).2 = Returns R /\ length R = length lst.
Proof.
  intros Hcpu Hg. exists (map g lst).
  split; [by apply make_parallel_processes_in_order|apply length_map].
Qed.

(** On the empty list both wrappers return the empty list and do nothing
    else. *)
Lemma empty_input_no_workers `{!Executor B} `{!Joblib A B}
    (h : host) (func : A -> outcome B) :
  make_parallel h func [] = ([], Returns [])
  /\ make_parallel_processes h func [] = ([], Returns []).
Proof. split; [apply make_parallel_nil|apply make_parallel_processes_nil]. Qed.

(** On a host with a single CPU the process-based wrapper calls [func] on
    the first element only, whatever the length of the list. *)
Lemma make_parallel_processes_single_cpu `{!Joblib A B}
    (h : host) (func : A -> outcome B) (x : A) (lst : list A) :
  multiprocessing_cpu_count h = 1%positive ->
  make_parallel_processes h func (x :: lst) = ([Call x], list_display (func x)).
Proof. intros Hcpu. apply make_parallel_processes_serial. by right. Qed.

(** *** The claims *)

(** C4: when [func] returns on every element of the list, the thread-based
    wrapper returns a list with the same elements as the values of [func] on
    the list: a permutation of them, hence the same set.  The order is the
    order of completion, which need not be the order of the list. *)
Theorem make_parallel_same_values `{!Executor B}
    (h : host) (func : A -> outcome B) (g : A -> B) (lst : list A) :
  (forall x, x ∈ lst -> func x = Returns (g x)) ->
  exists R, (make_parallel h func lst).2 = Returns R
    /\ R ≡ₚ map g lst
    /\ (forall b, b ∈ R <-> exists x, x ∈ lst /\ b = g x).
Proof.
  intros Hg. destruct (make_parallel_permutation h func g lst Hg) as (R & HR & Hperm).
  exists R. split_and!; [done..|].
  intros b. rewrite Hperm. change (map g lst) with (g <$> lst).
  rewrite list_elem_of_fmap. split; intros (x & H1 & H2); exists x; done.
Qed.

(** C5: the thread-based wrapper sizes its pool as [W = min (C * 2) |L|],
    [C] being the CPU count of the host: this is the number of workers it
    computes, every pool it creates is a thread pool of that size, and with
    [C = 4] and a list of length 100 it creates a pool of 8 threads. *)
Theorem thread_pool_size `{!Executor B}
    (h : host) (func : A -> outcome B) (lst : list A) :
  thread_workers h lst = Nat.min (Pos.to_nat (os_cpu_count h) * 2) (length lst)
  /\ (forall kind n, PoolCreate kind n ∈ (make_parallel h func lst).1 ->
        kind = Threads /\ n = Nat.min (Pos.to_nat (os_cpu_count h) * 2) (length lst))
  /\ (os_cpu_count h = 4%positive -> length lst = 100 ->
        head (make_parallel h func lst).1 = Some (PoolCreate Threads 8)).
Proof.
  split_and!.
  - apply thread_workers_min.
  - intros kind n Hin. rewrite <-thread_workers_min. by eapply make_parallel_pools.
  - intros HC Hlen. rewrite make_parallel_pool by lia. cbn [fst head].
    rewrite thread_workers_min, HC, Hlen. reflexivity.
Qed.

(** C3, as amended: the process-based wrapper sizes its pool as
    [W = min C |L|], the CPU count itself and not twice the CPU count; every
    pool it creates is a process pool of that size. *)
Theorem process_pool_size `{!Joblib A B}
    (h : host) (func : A -> outcome B) (lst : list A) :
  process_workers h lst = Nat.min (Pos.to_nat (multiprocessing_cpu_count h)) (length lst)
  /\ (forall kind n, PoolCreate kind n ∈ (make_parallel_processes h func lst).1 ->
        kind = Processes
        /\ n = Nat.min (Pos.to_nat (multiprocessing_cpu_count h)) (length lst)).
Proof.
  split.
  - apply process_workers_min.
  - intros kind n Hin. rewrite <-process_workers_min.
    by eapply make_parallel_processes_pools.
Qed.

(** C6: on a list of exactly one element both wrappers call [func] once, in
    the calling thread, on that element, and do nothing else, so that no pool
    is created: when the call returns [v] they return the one-element list
    [[v]], and when it raises they raise its exception. *)
Theorem single_element_runs_serially `{!Executor B} `{!Joblib A B}
    (h : host) (func : A -> outcome B) (lst : list A) :
  length lst = 1 ->
  exists x, lst !! 0 = Some x
    /\ (forall v, func x = Returns v ->
          make_parallel h func lst = ([Call x], Returns [v])
          /\ make_parallel_processes h func lst = ([Call x], Returns [v]))
    /\ (forall e, func x = Raises e ->
          make_parallel h func lst = ([Call x], Raises e)
          /\ make_parallel_processes h func lst = ([Call x], Raises e)).
Proof.
  intros Hlen. destruct lst as [|x [|y lst]]; try discriminate.
  exists x. split; [reflexivity|].
  rewrite make_parallel_one, make_parallel_processes_serial by (by left).
  split; intros ? ->; done.
Qed.

End parallel_properties.

(** *** Concrete runs *)

Section parallel_runs.

Import Parallel.

(** With several CPUs the process-based wrapper maps the list in order. *)
Example processes_squares_quad_core :
  @make_parallel_processes nat nat (sequential_joblib nat nat) quad_core square [1; 2; 3; 4; 5]
  = ([PoolCreate Processes 4], Returns [1; 4; 9; 16; 25]).
Proof. reflexivity. Qed.

(** With futures that complete last-in first-out, the thread-based wrapper
    returns the values in the opposite order. *)
Example threads_squares_lifo :
  (@make_parallel nat nat (lifo_executor nat) quad_core square [1; 2; 3]).2
  = Returns [9; 4; 1].
Proof. reflexivity. Qed.

(** C1, at the failing input: on a host with a single CPU the number of
    workers is 1 whatever the length of the list, and the branch meant for
    lists of length 1 runs: of the list [1; 2; 3; 4; 5] only the first
    element is passed to [func], and the result is [[1]] instead of
    [[1; 4; 9; 16; 25]]. *)
Theorem processes_single_cpu_keeps_first_only `{!Joblib nat nat} :
  make_parallel_processes single_core square [1; 2; 3; 4; 5]
  = ([Call 1], Returns [1])
  /\ (make_parallel_processes single_core square [1; 2; 3; 4; 5]).2
     <> Returns (map (fun x => x * x) [1; 2; 3; 4; 5]).
Proof. split; [reflexivity|discriminate]. Qed.

(** C2, at the failing input: on a host with a single CPU the process-based
    wrapper returns one element for a list of three. *)
Theorem processes_single_cpu_output_length `{!Joblib nat nat} :
  exists R, (make_parallel_processes single_core square [7; 8; 9]).2 = Returns R
    /\ length R = 1
    /\ length R <> length [7; 8; 9].
Proof. exists [49]. split_and!; [reflexivity..|discriminate]. Qed.

(** C8, at the failing input: on a host with a single CPU the process-based
    wrapper is given the list [1; 2] and a function that raises on 2.  The
    branch meant for lists of length 1 runs: [func] is called on 1 only, the
    failing element is never reached, and the caller gets the partial list
    [[1]] instead of the exception. *)
Theorem processes_single_cpu_swallows_failure `{!Joblib nat nat} :
  2 ∈ [1; 2]
  /\ fail_on_2 2 = Raises (Exception "two")
  /\ make_parallel_processes single_core fail_on_2 [1; 2] = ([Call 1], Returns [1]).
Proof. split_and!; [apply list_elem_of_further, list_elem_of_here|reflexivity..]. Qed.

(** C3, the claim as stated fails: with 4 CPUs and 100 inputs the
    process-based wrapper uses 4 workers, not [min (4 * 2) 100 = 8], and not
    the number of the thread-based wrapper. *)
Lemma process_workers_not_doubled :
  process_workers quad_core (replicate 100 0)
  <> Nat.min (Pos.to_nat (multiprocessing_cpu_count quad_core) * 2)
             (length (replicate 100 0))
  /\ process_workers quad_core (replicate 100 0)
     <> thread_workers quad_core (replicate 100 0).
Proof. split; vm_compute; discriminate. Qed.

Lemma process_pool_size_witness :
  PoolCreate Processes 4
    ∈ (@make_parallel_processes nat nat (sequential_joblib nat nat)
         quad_core square (replicate 100 0)).1
  /\ 4 = Nat.min (Pos.to_nat 4) (length (replicate 100 0)).
Proof.
  split; [apply list_elem_of_here|].
  refine (proj2 (proj2 (@process_pool_size nat nat (sequential_joblib nat nat)
                          quad_core square (replicate 100 0)) Processes 4 _)).
  apply list_elem_of_here.
Defined.

Lemma make_parallel_same_values_witness :
  exists R, (@make_parallel nat nat (lifo_executor nat) quad_core square [1; 2; 3]).2
            = Returns R
    /\ R ≡ₚ map (fun x => x * x) [1; 2; 3]
    /\ (forall b, b ∈ R <-> exists x, x ∈ [1; 2; 3] /\ b = x * x).
Proof.
  apply (@make_parallel_same_values nat nat (lifo_executor nat) quad_core square
           (fun x => x * x) [1; 2; 3]).
  intros x _. reflexivity.
Defined.

Lemma thread_pool_size_witness :
  os_cpu_count quad_core = 4%positive
  /\ length (replicate 100 0) = 100
  /\ head (@make_parallel nat nat (fifo_executor nat) quad_core square (replicate 100 0)).1
     = Some (PoolCreate Threads 8).
Proof.
  split_and!; [reflexivity..|].
  apply (@thread_pool_size nat nat (fifo_executor nat) quad_core square (replicate 100 0));
    reflexivity.
Defined.

Lemma single_element_runs_serially_witness :
  length [5] = 1
  /\ @make_parallel nat nat (fifo_executor nat) quad_core square [5]
     = ([Call 5], Returns [25])
  /\ @make_parallel_processes nat nat (sequential_joblib nat nat) quad_core square [5]
     = ([Call 5], Returns [25])
  /\ @make_parallel nat nat (fifo_executor nat) quad_core fail_on_2 [2]
     = ([Call 2], Raises (Exception "two"))
  /\ @make_parallel_processes nat nat (sequential_joblib nat nat) quad_core fail_on_2 [2]
     = ([Call 2], Raises (Exception "two")).
Proof.
  split; [reflexivity|].
  destruct (@single_element_runs_serially nat nat (fifo_executor nat)
              (sequential_joblib nat nat) quad_core square [5] eq_refl)
    as (x & Hx & Hreturns & _).
  injection Hx as <-.
  destruct (@single_element_runs_serially nat nat (fifo_executor nat)
              (sequential_joblib nat nat) quad_core fail_on_2 [2] eq_refl)
    as (y & Hy & _ & Hraises).
  injection Hy as <-.
  destruct (Hreturns 25 eq_refl) as [Ht Hp].
  destruct (Hraises (Exception "two") eq_refl) as [Ht' Hp'].
  split_and!; assumption.
Defined.

Lemma fail_on_2_only (y : nat) (e' : exn) :
  fail_on_2 y = Raises e' -> e' = Exception "two".
Proof. unfold fail_on_2. destruct (y =? 2); congruence. Qed.

End parallel_runs.

(** ** singleton *)

Section singleton_properties.

Import Singleton.

Context {Args Obj : Type}.

#[local] Abbreviation pyclass := (@Singleton.pyclass Args Obj).
#[local] Abbreviation state := (@Singleton.state Obj).

(** A call that finds the class in the dictionary returns the stored
    reference and changes nothing: the constructor is not called, nothing is
    printed, the arguments are not looked at. *)
Lemma getinstance_cached (class_ : pyclass) (args : Args) (st : state) (ref : nat) :
  instances st !! class_id class_ = Some ref ->
  getinstance class_ args st = (Returns ref, st).
Proof.
  intros Hin. unfold getinstance, bind, contains, getitem. simpl.
  rewrite Hin. rewrite bool_decide_eq_true_2 by eauto. simpl. by rewrite Hin.
Qed.

(** A call that does not find the class prints, constructs an object, stores
    a reference to it and returns the reference. *)
Lemma getinstance_constructs (class_ : pyclass) (args : Args) (st : state) (obj : Obj) :
  instances st !! class_id class_ = None ->
  construct class_ args = Returns obj ->
  getinstance class_ args st
  = (Returns (length (heap st)),
     {| heap := heap st ++ [obj];
        instances := <[class_id class_ := length (heap st)]> (instances st);
        stdout := stdout st ++ [creating class_] |}).
Proof.
  intros Hin Hobj. unfold getinstance, bind, contains, getitem, new, setitem, print. simpl.
  rewrite Hin. rewrite bool_decide_eq_false_2 by (by intros [? ?]). simpl.
  rewrite Hobj. simpl. by rewrite lookup_insert_eq.
Qed.

(** When the constructor raises, the assignment of line 130 is not reached. *)
Lemma getinstance_raises (class_ : pyclass) (args : Args) (st : state) (e : exn) :
  instances st !! class_id class_ = None ->
  construct class_ args = Raises e ->
  getinstance class_ args st
  = (Raises e,
     {| heap := heap st;
        instances := instances st;
        stdout := stdout st ++ [creating class_] |}).
Proof.
  intros Hin Hobj. unfold getinstance, bind, contains, getitem, new, setitem, print. simpl.
  rewrite Hin. rewrite bool_decide_eq_false_2 by (by intros [? ?]). simpl.
  by rewrite Hobj.
Qed.

Lemma call_each_cached (class_ : pyclass) (argss : list Args) (st : state) (ref : nat) :
  instances st !! class_id class_ = Some ref ->
  call_each (getinstance class_) argss st = (map (fun _ => Returns ref) argss, st).
Proof.
  intros Hin. induction argss as [|args argss IH]; [reflexivity|].
  simpl. rewrite (getinstance_cached _ _ _ _ Hin), IH. reflexivity.
Qed.

(** C7: once the first call of a singleton-wrapped class has constructed an
    object from its arguments [y], every later call returns the reference to
    that same object, whatever its arguments [x]: the object in the store is
    still the one built from [y], the state does not change, and so the
    constructor is not called again and the new arguments are ignored. *)
Theorem singleton_returns_first_instance
    (class_ : pyclass) (store : list Obj) (out : list string)
    (y : Args) (obj : Obj) (xs : list Args) :
  construct class_ y = Returns obj ->
  exists ref st1,
    (singleton class_ store out).1 y (singleton class_ store out).2 = (Returns ref, st1)
    /\ heap st1 !! ref = Some obj
    /\ (forall x, (singleton class_ store out).1 x st1 = (Returns ref, st1))
    /\ call_each (singleton class_ store out).1 xs st1
       = (map (fun _ => Returns ref) xs, st1).
Proof.
  intros Hobj. unfold singleton. cbn [fst snd].
  eexists _, _. split.
  { apply getinstance_constructs; [apply lookup_empty|exact Hobj]. }
  cbn [heap instances].
  split_and!.
  - apply list_lookup_middle. reflexivity.
  - intros x. apply getinstance_cached. cbn [instances]. apply lookup_insert_eq.
  - apply call_each_cached. cbn [instances]. apply lookup_insert_eq.
Qed.

(** C10: when the class is not in the dictionary and its constructor
    raises, the call raises that exception and leaves the dictionary (and
    the object store) as they were; the next call constructs again from its
    own arguments: it returns a new object when the constructor returns, and
    raises when the constructor raises again. *)
Theorem failed_construction_not_cached
    (class_ : pyclass) (st : state) (y : Args) (e : exn) :
  instances st !! class_id class_ = None ->
  construct class_ y = Raises e ->
  exists st',
    getinstance class_ y st = (Raises e, st')
    /\ instances st' = instances st
    /\ heap st' = heap st
    /\ forall x,
        getinstance class_ x st'
        = match construct class_ x with
          | Returns obj =>
              (Returns (length (heap st')),
               {| heap := heap st' ++ [obj];
                  instances := <[class_id class_ := length (heap st')]> (instances st');
                  stdout := stdout st' ++ [creating class_] |})
          | Raises e' =>
              (Raises e',
               {| heap := heap st';
                  instances := instances st';
                  stdout := stdout st' ++ [creating class_] |})
          end.
Proof.
  intros Hin He. eexists. split; [by apply getinstance_raises|].
  cbn [heap instances stdout]. split_and!; [reflexivity..|].
  intros x. destruct (construct class_ x) as [obj|e'] eqn:Hx.
  - by rewrite (getinstance_constructs _ _ _ obj).
  - by rewrite (getinstance_raises _ _ _ e').
Qed.

End singleton_properties.

(** *** Concrete runs *)

Section singleton_runs.

Import Singleton.

(** Constructed with 5, then called with 7, with 0 (which the constructor
    would refuse) and with 9: always the first object. *)
Example positive_calls :
  call_each (singleton Positive [] []).1 [5; 7; 0; 9] (singleton Positive [] []).2
  = ([Returns 0; Returns 0; Returns 0; Returns 0],
     {| heap := [5];
        instances := {[ 1%positive := 0 ]};
        stdout := ["singleton(): creating class Positive"%string] |}).
Proof. reflexivity. Qed.

Lemma singleton_returns_first_instance_witness :
  construct Positive 5 = Returns 5
  /\ exists ref st1,
      (singleton Positive [] []).1 5 (singleton Positive [] []).2
      = (Returns ref, st1)
      /\ heap st1 !! ref = Some 5
      /\ (forall x, (singleton Positive [] []).1 x st1 = (Returns ref, st1))
      /\ call_each (singleton Positive [] []).1 [7; 0; 9] st1
         = (map (fun _ => Returns ref) [7; 0; 9], st1).
Proof.
  split; [reflexivity|].
  apply (singleton_returns_first_instance Positive [] [] 5 5 [7; 0; 9]).
  reflexivity.
Defined.

Lemma failed_construction_not_cached_witness :
  instances (singleton Positive [] []).2 !! class_id Positive = None
  /\ construct Positive 0 = Raises (Exception "not positive")
  /\ exists st',
      getinstance Positive 0 (singleton Positive [] []).2
      = (Raises (Exception "not positive"), st')
      /\ instances st' = ∅
      /\ (getinstance Positive 3 st').1 = Returns 0.
Proof.
  split_and!; [reflexivity..|].
  destruct (failed_construction_not_cached Positive (singleton Positive [] []).2 0
              (Exception "not positive") eq_refl eq_refl)
    as (st' & Hcall & Hinst & Hheap & Hnext).
  exists st'. split_and!; [exact Hcall|exact Hinst|].
  rewrite (Hnext 3). cbn. rewrite Hheap. reflexivity.
Defined.

End singleton_runs.

(** * Part III: further properties *)

(** ** timing: the log and the clock *)

Section timing_log.

Import Timing.

Context {seconds Args Kw R : Type}.
Variable fsub : seconds -> seconds -> seconds.
Variable format_line : string -> Args -> Kw -> seconds -> string.

#[local] Abbreviation world := (@Timing.world seconds).
#[local] Abbreviation callable := (@Timing.callable seconds Args Kw R).
#[local] Abbreviation timing := (Timing.timing fsub format_line).



(** X2: when the wrapped callable raises, the timed call raises the same
    exception and leaves the world exactly as the callable left it: no line
    is written and the clock is not read a second time. *)
Theorem timing_exception_unlogged
    (func : callable) (args : Args) (kw : Kw) (w w' : world) (e : exn) :
  call func args kw (time w).2 = (Raises e, w') ->
  call (timing func) args kw w = (Raises e, w').
Proof.
  intros Hcall. cbn [Timing.timing call]. unfold wrap, bind.
  simpl in *. rewrite Hcall. reflexivity.
Qed.


End timing_log.

Section timing_log_runs.

Import Timing.


Lemma timing_exception_unlogged_witness :
  call (Timing.timing Nat.sub name_only refuse) 3 4 ticking
  = (Raises (Exception "refused"),
     {| clock := fun n => 10 * n; reads := 1; stdout := [] |}).
Proof.
  apply (timing_exception_unlogged Nat.sub name_only refuse 3 4 ticking).
  reflexivity.
Defined.


End timing_log_runs.

(** ** The parallel wrappers: calls, pools and failures *)

Section parallel_further.

Import Parallel.

Context {A B : Type}.


Lemma short_list (lst : list A) :
  length lst <= 1 -> lst = [] \/ exists x, lst = [x].
Proof. destruct lst as [|x [|y lst]]; simpl; [by left|right; by exists x|lia]. Qed.


(** X5: on a host with a single CPU the process-based wrapper never creates
    a pool: whatever the length of the list, it calls [func] on the first
    element only and returns the one-element list of its value. *)
Theorem processes_single_cpu_first_only `{!Joblib A B}
    (h : host) (func : A -> outcome B) (lst : list A) :
  multiprocessing_cpu_count h = 1%positive ->
  make_parallel_processes h func lst
  = match lst with
    | [] => ([], Returns [])
    | x :: _ => ([Call x], list_display (func x))
    end.
Proof.
  intros Hcpu. destruct lst as [|x lst].
  - apply make_parallel_processes_nil.
  - by apply make_parallel_processes_single_cpu.
Qed.

(** X7: the thread-based wrapper creates no pool for a list of one element
    at most.  For a longer list the first thing it does is to create a thread
    pool, of at least 2 and at most [|L|] workers, and the last thing is to
    leave the [with] block of the pool, also when a call raises. *)
Theorem thread_pool_lifecycle `{!Executor B}
    (h : host) (func : A -> outcome B) (lst : list A) :
  (length lst <= 1 ->
     forall kind n, PoolCreate kind n ∉ (make_parallel h func lst).1)
  /\ (2 <= length lst ->
      head (make_parallel h func lst).1 = Some (PoolCreate Threads (thread_workers h lst))
      /\ last (make_parallel h func lst).1 = Some PoolExit
      /\ 2 <= thread_workers h lst <= length lst).
Proof.
  split.
  - intros Hshort kind n Hin.
    destruct (short_list lst Hshort) as [->|[x ->]].
    + rewrite make_parallel_nil in Hin. inversion Hin.
    + rewrite make_parallel_one in Hin. apply list_elem_of_singleton in Hin. discriminate.
  - intros Hlong. rewrite make_parallel_pool by done. cbn [fst].
    split_and!.
    + reflexivity.
    + rewrite app_comm_cons. apply last_snoc.
    + rewrite thread_workers_min. lia.
    + rewrite thread_workers_min. lia.
Qed.

(** X8: the process-based wrapper creates no pool for a list of one element
    at most, nor on a host with a single CPU.  Otherwise the first thing it
    does is to create a process pool, of at least 2 workers and of no more
    workers than elements or CPUs. *)
Theorem process_pool_lifecycle `{!Joblib A B}
    (h : host) (func : A -> outcome B) (lst : list A) :
  (length lst <= 1 \/ multiprocessing_cpu_count h = 1%positive ->
     forall kind n, PoolCreate kind n ∉ (make_parallel_processes h func lst).1)
  /\ (2 <= length lst -> multiprocessing_cpu_count h <> 1%positive ->
      head (make_parallel_processes h func lst).1
      = Some (PoolCreate Processes (process_workers h lst))
      /\ 2 <= process_workers h lst <= length lst
      /\ process_workers h lst <= Pos.to_nat (multiprocessing_cpu_count h)).
Proof.
  split.
  - intros Hserial kind n Hin. destruct lst as [|x lst].
    + rewrite make_parallel_processes_nil in Hin. inversion Hin.
    + rewrite make_parallel_processes_serial in Hin.
      * apply list_elem_of_singleton in Hin. discriminate.
      * destruct Hserial as [Hlen|Hcpu]; [left|by right].
        destruct lst; [done|simpl in Hlen; lia].
  - intros Hlong Hcpu. rewrite make_parallel_processes_pool by done. cbn [fst].
    rewrite process_workers_min. split_and!; [reflexivity|lia..].
Qed.



(** X16: when [func] raises on an element of the list, the thread-based
    wrapper raises: it returns no list, and the exception is one that [func]
    raises on an element of the list, as it was raised.  When [func] can
    raise only one exception on the list, that exception is the one the
    caller gets. *)
Theorem thread_failure_propagates `{!Executor B}
    (h : host) (func : A -> outcome B) (lst : list A) (x : A) (e : exn) :
  x ∈ lst ->
  func x = Raises e ->
  (exists x' e', x' ∈ lst /\ func x' = Raises e'
     /\ (make_parallel h func lst).2 = Raises e')
  /\ ((forall y e', y ∈ lst -> func y = Raises e' -> e' = e) ->
      (make_parallel h func lst).2 = Raises e).
Proof.
  intros Hin Hx.
  destruct (make_parallel_raises h func lst x e Hin Hx) as (x' & e' & Hin' & Hx' & Hout).
  split; [by exists x', e'|].
  intros Hsame. by rewrite Hout, (Hsame x' e').
Qed.

End parallel_further.

Section parallel_further_runs.

Import Parallel.

Lemma processes_single_cpu_first_only_witness :
  multiprocessing_cpu_count single_core = 1%positive
  /\ @make_parallel_processes nat nat (sequential_joblib nat nat) single_core square [3; 4; 5]
     = ([Call 3], Returns [9]).
Proof.
  split; [reflexivity|].
  apply (@processes_single_cpu_first_only nat nat (sequential_joblib nat nat)
           single_core square [3; 4; 5]).
  reflexivity.
Defined.


(** The same list under the opposite order of completion: the caller gets
    the other exception. *)
Example first_failure_lifo :
  (@make_parallel nat nat (lifo_executor nat) quad_core fail_tagged [0; 1; 2]).2
  = Raises (Exception "many").
Proof. reflexivity. Qed.


(** A pool of three calls of which one fails, and a single failing call. *)
Lemma thread_failure_propagates_witness :
  (@make_parallel nat nat (lifo_executor nat) quad_core fail_on_2 [1; 2; 3]).2
  = Raises (Exception "two")
  /\ (@make_parallel nat nat (lifo_executor nat) quad_core fail_on_2 [2]).2
     = Raises (Exception "two").
Proof.
  split.
  - apply (@thread_failure_propagates nat nat (lifo_executor nat) quad_core fail_on_2
             [1; 2; 3] 2 (Exception "two")).
    + apply list_elem_of_further, list_elem_of_here.
    + reflexivity.
    + intros y e' _. apply fail_on_2_only.
  - apply (@thread_failure_propagates nat nat (lifo_executor nat) quad_core fail_on_2
             [2] 2 (Exception "two")).
    + apply list_elem_of_here.
    + reflexivity.
    + intros y e' _. apply fail_on_2_only.
Defined.

Lemma thread_pool_lifecycle_witness :
  2 <= length [1; 2; 3]
  /\ head (@make_parallel nat nat (lifo_executor nat) quad_core fail_on_2 [1; 2; 3]).1
     = Some (PoolCreate Threads (thread_workers quad_core [1; 2; 3]))
  /\ last (@make_parallel nat nat (lifo_executor nat) quad_core fail_on_2 [1; 2; 3]).1
     = Some PoolExit
  /\ 2 <= thread_workers quad_core [1; 2; 3] <= length [1; 2; 3].
Proof.
  split; [simpl; lia|].
  apply (@thread_pool_lifecycle nat nat (lifo_executor nat) quad_core fail_on_2 [1; 2; 3]).
  simpl. lia.
Defined.

Lemma process_pool_lifecycle_witness :
  2 <= length [1; 2; 3]
  /\ multiprocessing_cpu_count quad_core <> 1%positive
  /\ head (@make_parallel_processes nat nat (sequential_joblib nat nat)
             quad_core square [1; 2; 3]).1
     = Some (PoolCreate Processes (process_workers quad_core [1; 2; 3]))
  /\ 2 <= process_workers quad_core [1; 2; 3] <= length [1; 2; 3]
  /\ process_workers quad_core [1; 2; 3] <= Pos.to_nat (multiprocessing_cpu_count quad_core).
Proof.
  split; [simpl; lia|]. split; [discriminate|].
  apply (@process_pool_lifecycle nat nat (sequential_joblib nat nat)
           quad_core square [1; 2; 3]); [simpl; lia|discriminate].
Defined.

End parallel_further_runs.

(** ** singleton: what the dictionary keeps *)

Section singleton_further.

Import Singleton.

Context {Args Obj : Type}.

#[local] Abbreviation pyclass := (@Singleton.pyclass Args Obj).
#[local] Abbreviation state := (@Singleton.state Obj).

(** Calls on a state that does not hold the class yet: every reference that
    is returned is the next free place of the store, and the store grows by
    one object at most. *)
Lemma call_each_uncached (class_ : pyclass) (argss : list Args) (st : state) :
  instances st !! class_id class_ = None ->
  length (heap (call_each (getinstance class_) argss st).2) <= S (length (heap st))
  /\ forall ref, Returns ref ∈ (call_each (getinstance class_) argss st).1 ->
       ref = length (heap st).
Proof.
  revert st. induction argss as [|args argss IH]; intros st Hin.
  { simpl. split; [lia|]. intros ref Href. inversion Href. }
  cbn [call_each]. destruct (construct class_ args) as [obj|e] eqn:Hargs.
  - rewrite (getinstance_constructs class_ args st obj Hin Hargs).
    rewrite call_each_cached with (ref := length (heap st))
      by (cbn [instances]; apply lookup_insert_eq).
    cbn [fst snd heap]. split; [rewrite length_app; simpl; lia|].
    intros ref [Heq|Href]%elem_of_cons; [congruence|].
    apply list_elem_of_fmap in Href as (? & Heq & _). congruence.
  - rewrite (getinstance_raises class_ args st e Hin Hargs).
    match goal with |- context [call_each _ argss ?s] => destruct (IH s Hin) as [Hlen Hrefs] end.
    destruct (call_each _ argss _) as [os st''].
    cbn [fst snd heap] in *. split; [exact Hlen|].
    intros ref [Heq|Href]%elem_of_cons; [discriminate|]. by apply Hrefs.
Qed.


(** X13: over any sequence of calls of the decorated class, from any state,
    one object at most is constructed and all the calls that return give the
    same reference, whatever the arguments and however many constructions
    failed before. *)
Theorem singleton_at_most_one_instance
    (class_ : pyclass) (argss : list Args) (st : state) :
  length (heap (call_each (getinstance class_) argss st).2) <= S (length (heap st))
  /\ forall ref1 ref2,
       Returns ref1 ∈ (call_each (getinstance class_) argss st).1 ->
       Returns ref2 ∈ (call_each (getinstance class_) argss st).1 ->
       ref1 = ref2.
Proof.
  destruct (instances st !! class_id class_) as [ref|] eqn:Hin.
  - rewrite (call_each_cached class_ argss st ref Hin). cbn [fst snd].
    split; [lia|].
    intros ref1 ref2 (? & H1 & _)%list_elem_of_fmap (? & H2 & _)%list_elem_of_fmap.
    congruence.
  - destruct (call_each_uncached class_ argss st Hin) as [Hlen Hrefs].
    split; [exact Hlen|].
    intros ref1 ref2 H1%Hrefs H2%Hrefs. congruence.
Qed.

End singleton_further.

Section singleton_further_runs.

Import Singleton.


(** Two refused constructions, then 5, then 7: one object. *)
Example positive_after_failures :
  (call_each (getinstance Positive) [0; 0; 5; 7] fresh_store).1
  = [Raises (Exception "not positive"); Raises (Exception "not positive");
     Returns 0; Returns 0].
Proof. reflexivity. Qed.

End singleton_further_runs.
